(** * medimate: the symptom checker of [app.py]

    A shallow embedding of the data tables [BODY_PART_SYMPTOMS] and
    [DISEASE_PROFILES], of the scoring function [calculate_probability] and of
    the script around it (the session kept across runs, the update of the
    selection, the values displayed), followed by their properties.

    Numbers.  Python's [float] is IEEE 754 binary64, which is what Rocq's
    primitive [float] is: [+], [/], [*] and the comparisons below are the
    hardware operations, rounding to nearest even.  A decimal literal such as
    [0.95] denotes the closest binary64 value, in Python and here alike.  The
    Python integers [0], [5] and [100] of the source only ever meet floats
    ([0 + w], [0 / m], [min(p, 100)], [p > 5]); Python converts them to the
    floats of the same value before operating, so they are written as floats.

    Containers.  A [dict] keeps its insertion order and that order is
    observable (the weights of a profile are summed in it), so a dict is an
    association list.  A [set] of strings has no order of its own, but the
    loop [for symptom in selected_symptoms] visits it in some order, which
    depends on the hashes of the strings: a set is the list of its elements in
    the order of that visit, and a statement about a set is a statement about
    every duplicate-free list of its elements. *)

From Stdlib Require Import ZArith List String Bool Floats Permutation Sorted Lia.
Import ListNotations.

Set Warnings "-inexact-float".

Open Scope string_scope.
Open Scope float_scope.
Open Scope list_scope.

(** ** Python dictionaries *)

Definition dict (V : Type) : Type := list (string * V).

Fixpoint dict_lookup {V : Type} (k : string) (d : dict V) : option V :=
  match d with
  | [] => None
  | (k', v) :: rest => if String.eqb k k' then Some v else dict_lookup k rest
  end.

(** [k in d] *)
Definition dict_mem {V : Type} (k : string) (d : dict V) : bool :=
  match dict_lookup k d with
  | Some _ => true
  | None => false
  end.

(** [d.keys()], [d.values()] *)
Definition dict_keys {V : Type} (d : dict V) : list string := map fst d.
Definition dict_values {V : Type} (d : dict V) : list V := map snd d.

(** [d.get(k, default)] *)
Definition dict_get {V : Type} (d : dict V) (k : string) (default : V) : V :=
  match dict_lookup k d with
  | Some v => v
  | None => default
  end.

(** [d[k] = v]: an existing key keeps its place, a new key goes last. *)
Fixpoint dict_set {V : Type} (k : string) (v : V) (d : dict V) : dict V :=
  match d with
  | [] => [(k, v)]
  | (k', v') :: rest =>
      if String.eqb k k' then (k', v) :: rest else (k', v') :: dict_set k v rest
  end.

(** ** The data model *)

Definition BODY_PART_SYMPTOMS : dict (list string) :=
  [ ("Head/Neck",
      ["Severe headache"; "Dizziness"; "Blurred vision"; "Facial numbness"; "Sore throat"]);
    ("Chest/Back",
      ["Shortness of breath"; "Chest pain"; "Persistent cough"; "Heart palpitations";
       "Upper back pain"]);
    ("Abdomen/Pelvis",
      ["Sharp stomach pain"; "Nausea/Vomiting"; "Diarrhea"; "Constipation"; "Bloating";
       "Pelvic pain"]);
    ("Joints/Limbs",
      ["Joint swelling"; "Muscle weakness"; "Numbness in limbs"; "Severe cramping";
       "Foot tingling"]);
    ("Systemic",
      ["Fever"; "Fatigue"; "Unexplained weight loss"; "Night sweats"]) ].

Definition DISEASE_PROFILES : dict (dict float) :=
  [ ("Migraine",
      [("Severe headache", 0.95); ("Blurred vision", 0.6); ("Dizziness", 0.4)]);
    ("Pneumonia",
      [("Persistent cough", 0.9); ("Shortness of breath", 0.8); ("Fever", 0.7)]);
    ("Irritable Bowel Syndrome (IBS)",
      [("Sharp stomach pain", 0.7); ("Bloating", 0.9); ("Constipation", 0.5)]);
    ("Anxiety Disorder",
      [("Heart palpitations", 0.8); ("Shortness of breath", 0.5); ("Dizziness", 0.5);
       ("Fatigue", 0.6)]);
    ("Rheumatoid Arthritis",
      [("Joint swelling", 0.9); ("Joint stiffness", 0.8); ("Fatigue", 0.5)]) ].

(** ** The scoring function *)

(** Python's two-argument [min(a, b)]: [b] when [b < a], otherwise [a]. *)
Definition py_min (a b : float) : float := if b <? a then b else a.

(** The loop of lines 44-46: the weights of the selected symptoms that the
    profile knows, added in the order the selection is visited.  The test
    [symptom in symptom_weights] and the read [symptom_weights[symptom]] it
    guards are one lookup. *)
Definition add_weight (symptom_weights : dict float) (score : float) (symptom : string)
  : float :=
  match dict_lookup symptom symptom_weights with
  | Some weight => score + weight
  | None => score
  end.

Definition match_score (symptom_weights : dict float) (selected_symptoms : list string)
  : float :=
  fold_left (add_weight symptom_weights) selected_symptoms 0.

(** The loop of lines 49-50: all the weights of the profile, in its order. *)
Definition max_possible_score (symptom_weights : dict float) : float :=
  fold_left (fun score weight => score + weight) (dict_values symptom_weights) 0.

(** Line 54. *)
Definition probability (symptom_weights : dict float) (selected_symptoms : list string)
  : float :=
  (match_score symptom_weights selected_symptoms / max_possible_score symptom_weights) * 100.

(** Lines 53-55 for one disease: the value stored in [results], or [None]
    when the guard [max_possible_score > 0] fails and nothing is stored. *)
Definition disease_probability (symptom_weights : dict float)
    (selected_symptoms : list string) : option float :=
  if 0 <? max_possible_score symptom_weights
  then Some (py_min (probability symptom_weights selected_symptoms) 100)
  else None.

(** A data frame with the columns [Disease] and [Probability], row by row. *)
Definition DataFrame : Type := list (string * float).

(** The loop of lines 39-55, run from a given state.  The state is the
    number of profiles iterated so far and the [results] dictionary. *)
Definition score_step (selected_symptoms : list string)
    (st : nat * dict float) (item : string * dict float) : nat * dict float :=
  let '(disease, symptom_weights) := item in
  (S (fst st),
   match disease_probability symptom_weights selected_symptoms with
   | Some p => dict_set disease p (snd st)
   | None => snd st
   end).

Definition score_loop (profiles : dict (dict float)) (selected_symptoms : list string)
  : nat * dict float :=
  fold_left (score_step selected_symptoms) profiles (0%nat, []).

(** [df.sort_values(by='Probability', ascending=False)].  pandas sets the
    rows whose key is NaN apart and puts them last; the other rows are put in
    descending order.  The order of rows with equal keys is the sorting
    routine's: pandas' default routine is not stable.  [sort_values] is the
    routine that keeps tied rows in insertion order; what pandas promises of
    any routine is [sorts_by_probability] below, and the ranking of the
    returned frame is stated for every routine that meets it
    ([calculate_probability_by]). *)
Definition isna (row : string * float) : bool := is_nan (snd row).
Definition notna (row : string * float) : bool := negb (isna row).

Fixpoint insert_desc (row : string * float) (sorted : DataFrame) : DataFrame :=
  match sorted with
  | [] => [row]
  | x :: rest =>
      if snd row <? snd x then x :: insert_desc row rest else row :: x :: rest
  end.

Fixpoint sort_desc (df : DataFrame) : DataFrame :=
  match df with
  | [] => []
  | row :: rest => insert_desc row (sort_desc rest)
  end.

Definition sort_values (df : DataFrame) : DataFrame :=
  sort_desc (filter notna df) ++ filter isna df.

(** [df[df['Probability'] > 5]] and [.head(5)] *)
Definition above_5 (row : string * float) : bool := 5 <? snd row.
Definition head (n : nat) (df : DataFrame) : DataFrame := firstn n df.

(** [calculate_probability], with the profile table it reads as a parameter
    and the number of profiles it iterated next to the frame it returns. *)
Definition calculate_probability_run (profiles : dict (dict float))
    (selected_symptoms : list string) : nat * DataFrame :=
  match selected_symptoms with
  | [] => (0%nat, [])
  | _ :: _ =>
      let '(iterated, results) := score_loop profiles selected_symptoms in
      let df := results in
      let df := sort_values df in
      let df := head 5 (filter above_5 df) in
      (iterated, df)
  end.

Definition calculate_probability (profiles : dict (dict float))
    (selected_symptoms : list string) : DataFrame :=
  snd (calculate_probability_run profiles selected_symptoms).

(** Line 110, the only reader of the taxonomy:
    [BODY_PART_SYMPTOMS.get(current_part, [])].  The outcome type has a
    constructor for the failure the accessor could signal. *)
Inductive outcome (A : Type) : Type :=
| Returned (a : A)
| UnknownRegion.
Arguments Returned {A} a.
Arguments UnknownRegion {A}.

Definition symptoms_for_part (current_part : string) : outcome (list string) :=
  Returned (dict_get BODY_PART_SYMPTOMS current_part []).

(** ** Notions used in the statements *)

(** [DISEASE_PROFILES["Migraine"]] and its three symptoms. *)
Definition migraine_profile : dict float := dict_get DISEASE_PROFILES "Migraine" [].
Definition migraine_symptoms : list string := dict_keys migraine_profile.

(** The three symptoms visited with ["Severe headache"] last. *)
Definition headache_last : list string :=
  ["Blurred vision"; "Dizziness"; "Severe headache"].

(** The symptoms the profiles mention. *)
Definition profile_symptoms : list string :=
  flat_map (fun item => dict_keys (snd item)) DISEASE_PROFILES.

(** The regions of the taxonomy that list a symptom. *)
Definition regions_listing (symptom : string) : list string :=
  dict_keys (filter (fun item => existsb (String.eqb symptom) (snd item)) BODY_PART_SYMPTOMS).

(** [referenced profiles s]: some profile of the table has a weight for [s]. *)
Definition referenced (profiles : dict (dict float)) (symptom : string) : bool :=
  existsb (fun item => dict_mem symptom (snd item)) profiles.

(** The confidences stored by the loop, one per profile that passes the
    guard: the [results] dictionary of the source. *)
Definition results (profiles : dict (dict float)) (sel : list string) : dict float :=
  snd (score_loop profiles sel).

(** [desc x y]: row [x] may stand before row [y] in descending order. *)
Definition desc (x y : string * float) : Prop := (snd y <=? snd x) = true.

(** What line 59 promises whatever the sorting routine: the rows of the frame
    are kept, each once; the rows with a NaN key come last; the others are in
    descending order.  Nothing is said of the order of tied rows. *)
Definition descending_na_last (df : DataFrame) : Prop :=
  exists rows nans,
    df = rows ++ nans /\
    Forall (fun row => notna row = true) rows /\
    StronglySorted desc rows /\
    Forall (fun row => isna row = true) nans.

Definition sorts_by_probability (sort : DataFrame -> DataFrame) : Prop :=
  forall df, Permutation (sort df) df /\ descending_na_last (sort df).

(** [calculate_probability] with the sorting routine of line 59 as a
    parameter. *)
Definition calculate_probability_by (sort : DataFrame -> DataFrame)
    (profiles : dict (dict float)) (selected_symptoms : list string) : DataFrame :=
  match selected_symptoms with
  | [] => []
  | _ :: _ =>
      let df := results profiles selected_symptoms in
      let df := sort df in
      head 5 (filter above_5 df)
  end.

(** No two distinct rows of the frame have the same confidence. *)
Definition tie_free (df : DataFrame) : Prop :=
  forall x y, In x df -> In y df -> desc x y -> desc y x -> x = y.

(** What a profile adds up depends on the selection only through the
    symptoms it knows, in the order they are visited.  For a profile with a
    handful of symptoms these visits can be listed: [arrangements n keys] has
    the duplicate-free lists over [keys] of length at most [n]. *)
Fixpoint arrangements (fuel : nat) (keys : list string) : list (list string) :=
  match fuel with
  | O => [[]]
  | S fuel' =>
      [] :: flat_map
              (fun k => map (cons k) (arrangements fuel' (remove string_dec k keys)))
              keys
  end.

(** The symptoms of a selection that the profile knows, in visiting order. *)
Definition matched (W : dict float) (sel : list string) : list string :=
  filter (fun s => dict_mem s W) sel.

(** [covers l l']: every element of [l] is in [l']. *)
Definition covers (l l' : list string) : bool :=
  forallb (fun s => existsb (String.eqb s) l') l.

(** Both confidences are stored and the first is at most the second. *)
Definition confidence_leb (c c' : option float) : bool :=
  match c, c' with
  | Some x, Some y => x <=? y
  | _, _ => false
  end.

(** Monotonicity checked on one profile: over all visits [l] and [l'] of
    symptoms of the profile such that [l'] has the symptoms of [l] and one
    more, the confidence for [l'] is at least the confidence for [l]. *)
Definition monotone_on (W : dict float) : bool :=
  let visits := arrangements (List.length W) (dict_keys W) in
  forallb
    (fun l =>
       forallb
         (fun l' =>
            implb ((List.length l' =? S (List.length l))%nat && covers l l')
                  (confidence_leb (disease_probability W l) (disease_probability W l')))
         visits)
    visits.

(** What the full Migraine selection yields, for one order of visit. *)
Definition full_migraine_outcome (sel : list string) : Prop :=
  (max_possible_score migraine_profile <=? match_score migraine_profile sel) = true /\
  disease_probability migraine_profile sel = Some 100 /\
  calculate_probability DISEASE_PROFILES sel =
    [("Migraine", 100); ("Anxiety Disorder", 20.833333333333336)].

(** ** The session script

    Lines 73-124 run once per interaction.  What persists between two runs is
    [st.session_state], with the keys [selected_symptoms] (a set) and
    [current_part]; a key is absent until the script first sets it.  The two
    widgets hand back what the user picked: the values of the radio
    [body_part_radio] and of the multiselect [symptom_multiselect] are inputs
    of a run. *)

(** A Python set of strings is the list of its elements, without duplicates;
    membership is all the operations below look at. *)
Definition set_mem (s : string) (xs : list string) : bool := existsb (String.eqb s) xs.

(** [set(l)] *)
Definition py_set (l : list string) : list string := nodup string_dec l.

(** [a.intersection(b)], [a - b] *)
Definition set_intersection (a b : list string) : list string :=
  filter (fun s => set_mem s b) a.
Definition set_difference (a b : list string) : list string :=
  filter (fun s => negb (set_mem s b)) a.

(** [a.difference_update(b)], [a.update(l)]: the new content of [a]. *)
Definition set_difference_update (a b : list string) : list string := set_difference a b.
Definition set_update (a l : list string) : list string :=
  fold_left (fun acc s => if set_mem s acc then acc else acc ++ [s]) l a.

(** [l.index(x)]: the first position of [x], or [None] where Python raises
    [ValueError]. *)
Fixpoint py_index (l : list string) (x : string) : option nat :=
  match l with
  | [] => None
  | y :: rest =>
      if String.eqb x y then Some 0%nat
      else match py_index rest x with
           | Some i => Some (S i)
           | None => None
           end
  end.

Inductive exception : Type := IndexError | ValueError.

Inductive py_result (A : Type) : Type :=
| Done (a : A)
| Raised (e : exception).
Arguments Done {A} a.
Arguments Raised {A} e.

Definition bind {A B : Type} (r : py_result A) (k : A -> py_result B) : py_result B :=
  match r with
  | Done a => k a
  | Raised e => Raised e
  end.

Notation "x <- r ;; k" := (bind r (fun x => k))
  (at level 61, r at next level, right associativity).

Record session_state : Type := {
  selected_symptoms : option (list string);
  current_part : option string
}.

Record interaction : Type := {
  body_part_radio : string;
  symptom_multiselect : list string
}.

(** Line 116, the preselection handed to the multiselect. *)
Definition multiselect_default (selected symptoms_for_part : list string) : list string :=
  set_intersection selected (py_set symptoms_for_part).

(** Lines 122 and 124. *)
Definition update_selection (selected symptoms_for_part new_selections : list string)
  : list string :=
  let selected :=
    set_difference_update selected
      (set_difference (py_set symptoms_for_part) (py_set new_selections)) in
  set_update selected new_selections.

(** One run of lines 73-124 over the taxonomy [parts]: the session it leaves,
    or the exception that stops it.  The preselection of line 116 goes to the
    widget only and is no part of the session. *)
Definition script_run (parts : dict (list string)) (st : session_state) (ui : interaction)
  : py_result session_state :=
  (* lines 74-75 *)
  let selected :=
    match selected_symptoms st with
    | Some selected => selected
    | None => []
    end in
  (* lines 76-77: [list(parts.keys())[0]] *)
  part <- match current_part st with
          | Some part => Done part
          | None =>
              match dict_keys parts with
              | [] => Raised IndexError
              | part :: _ => Done part
              end
          end ;;
  (* line 101: [list(parts.keys()).index(current_part)] *)
  _ <- match py_index (dict_keys parts) part with
       | Some index => Done index
       | None => Raised ValueError
       end ;;
  (* line 104 *)
  let part := body_part_radio ui in
  (* line 110 *)
  let symptoms_for_part := dict_get parts part [] in
  (* lines 113-118 *)
  let new_selections := symptom_multiselect ui in
  (* lines 122-124 *)
  let selected := update_selection selected symptoms_for_part new_selections in
  Done {| selected_symptoms := Some selected; current_part := Some part |}.

Fixpoint script_runs (parts : dict (list string)) (st : session_state)
    (uis : list interaction) : py_result session_state :=
  match uis with
  | [] => Done st
  | ui :: rest => st' <- script_run parts st ui ;; script_runs parts st' rest
  end.

(** The session before the first run. *)
Definition fresh_session : session_state :=
  {| selected_symptoms := None; current_part := None |}.

(** What the widgets can hand back: the radio one of its options, the
    multiselect some of the options it was given for that part. *)
Definition valid_interaction (parts : dict (list string)) (ui : interaction) : Prop :=
  In (body_part_radio ui) (dict_keys parts) /\
  incl (symptom_multiselect ui) (dict_get parts (body_part_radio ui) []).

(** All the symptoms of a taxonomy. *)
Definition taxonomy_symptoms (parts : dict (list string)) : list string :=
  flat_map snd parts.

(** The session is in order: the current part, once set, is a region of the
    taxonomy, and the selection, once set, is a set of symptoms of the
    taxonomy. *)
Definition session_ok (parts : dict (list string)) (st : session_state) : Prop :=
  match current_part st with
  | Some part => In part (dict_keys parts)
  | None => True
  end /\
  match selected_symptoms st with
  | Some selected => NoDup selected /\ incl selected (taxonomy_symptoms parts)
  | None => True
  end.

(** ** The display *)

(** [sorted(l)] on strings: ascending in the order of the code points.
    Strings are their UTF-8 bytes here, and the order of the bytes is the
    order of the code points. *)
Fixpoint insert_sorted (s : string) (l : list string) : list string :=
  match l with
  | [] => [s]
  | x :: rest => if String.leb s x then s :: l else x :: insert_sorted s rest
  end.

Definition sorted (l : list string) : list string := fold_right insert_sorted [] l.

(** [string_le a b]: [a <= b] on Python strings. *)
Definition string_le (a b : string) : Prop := String.leb a b = true.

(** Line 136: [f"> *{', '.join(sorted(list(selected_symptoms)))}*"] *)
Definition current_symptoms_line (selected : list string) : string :=
  ("> *" ++ String.concat ", " (sorted selected) ++ "*")%string.

(** Line 161, for the rows of the frame in turn: the arguments of
    [st.progress]. *)
Definition progress_values (prediction_df : DataFrame) : list float :=
  map (fun row => snd row / 100) prediction_df.

(** ** Checks over the visits of a profile *)

Definition rheumatoid_profile : dict float :=
  dict_get DISEASE_PROFILES "Rheumatoid Arthritis" [].

(** A property of the confidence a profile stores, checked on every visit of
    symptoms of the profile. *)
Definition on_all_visits (W : dict float) (check : list string -> float -> bool) : bool :=
  forallb
    (fun l =>
       match disease_probability W l with
       | Some c => check l c
       | None => false
       end)
    (arrangements (List.length W) (dict_keys W)).

(** With a symptom matched, the confidence is above 5. *)
Definition matched_above_5 (l : list string) (c : float) : bool :=
  match l with
  | [] => true
  | _ :: _ => 5 <? c
  end.

(** A confidence of 100 needs all the symptoms of the profile, and with all
    of them the confidence is at least [99.999999999999972]. *)
Definition full_match_check (W : dict float) (l : list string) (c : float) : bool :=
  implb (c =? 100) (covers (dict_keys W) l) &&
  implb (covers (dict_keys W) l) (99.999999999999972 <=? c).

(** The confidence divided by 100 is between 0 and 1. *)
Definition progress_in_range (l : list string) (c : float) : bool :=
  (0 <=? c / 100) && (c / 100 <=? 1).

(** Without ["Joint stiffness"] the confidence is at most [bound]. *)
Definition bounded_without_stiffness (bound : float) (l : list string) (c : float) : bool :=
  set_mem "Joint stiffness" l || (c <=? bound).

(** ** Binary64 comparisons

    The comparisons of primitive floats are specified by [SFcompare] on
    [spec_float]; the facts below are read off that specification. *)

Module F64.

Ltac cmp_cases :=
  repeat match goal with
  | |- context [Z.compare ?a ?b] => destruct (Z.compare_spec a b)
  | |- context [PosDef.Pos.compare ?a ?b] =>
      change (PosDef.Pos.compare a b) with (Pos.compare a b);
      destruct (Pos.compare_spec a b)
  | |- context [PosDef.Pos.compare_cont Eq ?a ?b] =>
      change (PosDef.Pos.compare_cont Eq a b) with (Pos.compare a b);
      destruct (Pos.compare_spec a b)
  end.

Ltac sf_order x y :=
  unfold SFltb, SFleb, SFeqb, SFcompare;
  destruct x as [[|]|[|]| |[|] ? ?], y as [[|]|[|]| |[|] ? ?];
  cmp_cases; simpl; intros; subst;
  try reflexivity; try discriminate; try congruence; try lia.

Lemma SFltb_false_leb (x y : spec_float) :
  x <> S754_nan -> y <> S754_nan -> SFltb x y = false -> SFleb y x = true.
Proof. sf_order x y. Qed.

Lemma SFltb_notnan (x y : spec_float) :
  SFltb x y = true -> x <> S754_nan /\ y <> S754_nan.
Proof. sf_order x y; split; discriminate. Qed.

Lemma SFleb_not_ltb (x y : spec_float) : SFleb x y = true -> SFltb y x = false.
Proof. sf_order x y. Qed.

Lemma SFltb_leb (x y : spec_float) : SFltb x y = true -> SFleb x y = true.
Proof. sf_order x y. Qed.

Lemma SFleb_trans (x y z : spec_float) :
  SFleb x y = true -> SFleb y z = true -> SFleb x z = true.
Proof.
  unfold SFleb, SFcompare;
  destruct x as [[|]|[|]| |[|] ? ?], y as [[|]|[|]| |[|] ? ?], z as [[|]|[|]| |[|] ? ?];
  cmp_cases; simpl; intros; subst;
  try reflexivity; try discriminate; try lia.
Qed.

Lemma SFeqb_refl_notnan (x : spec_float) : SFeqb x x = true <-> x <> S754_nan.
Proof.
  unfold SFeqb, SFcompare; destruct x as [[|]|[|]| |[|] ? ?]; simpl;
  rewrite ?Z.compare_refl, ?Pos.compare_refl; simpl; split; congruence.
Qed.

Lemma is_nan_false (x : float) : is_nan x = false <-> Prim2SF x <> S754_nan.
Proof.
  unfold is_nan. rewrite eqb_spec, negb_false_iff. apply SFeqb_refl_notnan.
Qed.

Lemma ltb_notnan (x y : float) :
  (x <? y) = true -> is_nan x = false /\ is_nan y = false.
Proof. rewrite ltb_spec, !is_nan_false. apply SFltb_notnan. Qed.

Lemma ltb_false_leb (x y : float) :
  is_nan x = false -> is_nan y = false -> (x <? y) = false -> (y <=? x) = true.
Proof. rewrite ltb_spec, leb_spec, !is_nan_false. apply SFltb_false_leb. Qed.

Lemma leb_not_ltb (x y : float) : (x <=? y) = true -> (y <? x) = false.
Proof. rewrite ltb_spec, leb_spec. apply SFleb_not_ltb. Qed.

Lemma ltb_leb (x y : float) : (x <? y) = true -> (x <=? y) = true.
Proof. rewrite ltb_spec, leb_spec. apply SFltb_leb. Qed.

Lemma leb_trans (x y z : float) :
  (x <=? y) = true -> (y <=? z) = true -> (x <=? z) = true.
Proof. rewrite !leb_spec. apply SFleb_trans. Qed.

Lemma ltb_irrefl (x : float) : (x <? x) = false.
Proof.
  rewrite ltb_spec. unfold SFltb, SFcompare.
  destruct (Prim2SF x) as [[|]|[|]| |[|] ? ?]; simpl;
  rewrite ?Z.compare_refl, ?Pos.compare_refl; reflexivity.
Qed.

(** [0 / m * 100] is [0] whenever [m] passes the guard [0 < m]. *)
Lemma zero_div_mul (m : float) : (0 <? m) = true -> 0 / m * 100 = 0.
Proof.
  intros H. apply Prim2SF_inj. rewrite mul_spec, div_spec.
  rewrite ltb_spec in H. revert H.
  change (Prim2SF 0) with (S754_zero false).
  destruct (Prim2SF m) as [[|]|[|]| |[|] ? ?]; try discriminate; intros _; reflexivity.
Qed.

End F64.

(** ** Dictionaries and frames: structural facts *)

Section Containers.

Context {V : Type}.

Lemma dict_lookup_In (k : string) (d : dict V) (v : V) :
  dict_lookup k d = Some v -> In (k, v) d.
Proof.
  induction d as [|[k' v'] rest IH]; simpl; [discriminate|].
  destruct (String.eqb_spec k k') as [->|_]; intros H.
  - injection H as ->. now left.
  - right. auto.
Qed.

Lemma dict_lookup_None (k : string) (d : dict V) :
  dict_lookup k d = None <-> ~ In k (dict_keys d).
Proof.
  induction d as [|[k' v'] rest IH]; simpl; [tauto|].
  destruct (String.eqb_spec k k') as [->|Hne].
  - split; [discriminate|]. intros H; exfalso; apply H; now left.
  - rewrite IH. split; intros H; [intros [E|I]|]; try tauto. now symmetry in E.
Qed.

Lemma In_dict_lookup (k : string) (d : dict V) (v : V) :
  NoDup (dict_keys d) -> In (k, v) d -> dict_lookup k d = Some v.
Proof.
  induction d as [|[k' v'] rest IH]; simpl; [tauto|].
  intros Hnd [E|I]; inversion Hnd as [|? ? Hnotin Hrest]; subst.
  - injection E as -> ->. now rewrite String.eqb_refl.
  - destruct (String.eqb_spec k k') as [->|_]; [|auto].
    exfalso. apply Hnotin. change k' with (fst (k', v)). now apply in_map.
Qed.

Lemma dict_mem_In (k : string) (d : dict V) : dict_mem k d = true <-> In k (dict_keys d).
Proof.
  unfold dict_mem. destruct (dict_lookup k d) eqn:E.
  - split; [intros _|reflexivity].
    apply dict_lookup_In in E. change k with (fst (k, v)). now apply in_map.
  - apply dict_lookup_None in E. split; [discriminate|tauto].
Qed.

Lemma In_dict_set (k k' : string) (v v' : V) (d : dict V) :
  In (k', v') (dict_set k v d) -> (k', v') = (k, v) \/ In (k', v') d.
Proof.
  induction d as [|[k0 v0] rest IH]; simpl.
  - intros [E|[]]. now left.
  - destruct (String.eqb_spec k k0) as [->|_]; simpl.
    + intros [E|I]; [now left | right; now right].
    + intros [E|I]; [right; now left|]. destruct (IH I); [now left | right; now right].
Qed.

End Containers.

Lemma In_head (n : nat) (df : DataFrame) (row : string * float) :
  In row (head n df) -> In row df.
Proof.
  unfold head. intros H. rewrite <- (firstn_skipn n df). apply in_or_app. now left.
Qed.

Lemma In_insert_desc (row r : string * float) (df : DataFrame) :
  In r (insert_desc row df) <-> r = row \/ In r df.
Proof.
  induction df as [|x rest IH]; simpl.
  - intuition congruence.
  - destruct (snd row <? snd x); simpl; [rewrite IH|]; intuition congruence.
Qed.

Lemma In_sort_desc (r : string * float) (df : DataFrame) :
  In r (sort_desc df) <-> In r df.
Proof.
  induction df as [|x rest IH]; simpl; [tauto|].
  rewrite In_insert_desc, IH. intuition congruence.
Qed.

Lemma In_sort_values (r : string * float) (df : DataFrame) :
  In r (sort_values df) <-> In r df.
Proof.
  unfold sort_values. rewrite in_app_iff, In_sort_desc, !filter_In.
  unfold notna. destruct (isna r); simpl; intuition congruence.
Qed.

(** ** The scoring loop *)

Lemma score_loop_iterated (sel : list string) (profiles : dict (dict float))
    (st : nat * dict float) :
  fst (fold_left (score_step sel) profiles st) = (fst st + List.length profiles)%nat.
Proof.
  revert st. induction profiles as [|[d W] rest IH]; intros st; simpl.
  - lia.
  - rewrite IH. simpl. lia.
Qed.

(** Every entry of [results] was stored for a profile of the table. *)
Lemma score_loop_origin (sel : list string) (profiles : dict (dict float))
    (st : nat * dict float) (d : string) (p : float) :
  In (d, p) (snd (fold_left (score_step sel) profiles st)) ->
  In (d, p) (snd st) \/
  exists W, In (d, W) profiles /\ disease_probability W sel = Some p.
Proof.
  revert st. induction profiles as [|[d' W'] rest IH]; intros st; simpl.
  - now left.
  - intros H. apply IH in H. destruct H as [H | (W & HW & Hp)].
    + simpl in H. destruct (disease_probability W' sel) as [p'|] eqn:E.
      * apply In_dict_set in H. destruct H as [H|H]; [|now left].
        injection H as -> ->. right. exists W'. split; [now left|assumption].
      * now left.
    + right. exists W. split; [now right|assumption].
Qed.

(** The rows of the returned frame are entries of [results] above 5. *)
Lemma calculate_probability_origin (profiles : dict (dict float)) (sel : list string)
    (d : string) (p : float) :
  In (d, p) (calculate_probability profiles sel) ->
  (5 <? p) = true /\
  exists W, In (d, W) profiles /\ disease_probability W sel = Some p.
Proof.
  unfold calculate_probability, calculate_probability_run.
  destruct sel as [|s sel]; [intros []|].
  destruct (score_loop profiles (s :: sel)) as [n results] eqn:E. cbn [snd].
  intros H. apply In_head, filter_In in H. destruct H as [H Hgt].
  apply (proj1 (In_sort_values _ _)) in H. split; [exact Hgt|].
  unfold score_loop in E.
  destruct (score_loop_origin (s :: sel) profiles (0%nat, []) d p) as [[]|Hex];
    [rewrite E; exact H | exact Hex].
Qed.

Lemma py_min_100 (p : float) :
  (100 <? py_min p 100) = false /\
  ((100 <? p) = true -> py_min p 100 = 100) /\
  ((100 <? p) = false -> py_min p 100 = p).
Proof.
  unfold py_min. destruct (100 <? p) eqn:E; repeat split; try discriminate; auto.
Qed.

(** ** Properties of the matching engine *)

(** C1.  For a non-empty selection, every row of the returned frame has a
    confidence strictly above 5 and at most 100; in particular no row has a
    confidence of exactly 5. *)
Theorem returned_confidence_range (profiles : dict (dict float)) (sel : list string)
    (d : string) (c : float) :
  sel <> [] ->
  In (d, c) (calculate_probability profiles sel) ->
  (5 <? c) = true /\ (c <=? 100) = true /\ c <> 5.
Proof.
  intros _ H. apply calculate_probability_origin in H.
  destruct H as [Hgt (W & _ & Hp)]. split; [exact Hgt|]. split.
  - unfold disease_probability in Hp.
    destruct (0 <? max_possible_score W); [|discriminate].
    injection Hp as <-.
    destruct (py_min_100 (probability W sel)) as (Hcap & _ & _).
    apply F64.ltb_false_leb; [reflexivity | | exact Hcap].
    now apply F64.ltb_notnan in Hgt.
  - intros ->. discriminate Hgt.
Qed.

Lemma returned_confidence_range_witness :
  let c := py_min (probability migraine_profile ["Severe headache"]) 100 in
  (5 <? c) = true /\ (c <=? 100) = true /\ c <> 5.
Proof.
  apply (returned_confidence_range DISEASE_PROFILES ["Severe headache"] "Migraine").
  - discriminate.
  - vm_compute. left. reflexivity.
Defined.

(** A profile whose confidence is exactly 5 is scored and then dropped. *)
Example confidence_5_dropped :
  disease_probability [("a", 1); ("b", 19)] ["a"] = Some 5 /\
  calculate_probability [("X", [("a", 1); ("b", 19)])] ["a"] = [].
Proof. split; reflexivity. Qed.

(** C2.  Whatever the profile table, an empty selection returns the empty
    frame, and the loop over the profiles is not entered: no profile is
    iterated. *)
Theorem empty_selection_short_circuit (profiles : dict (dict float)) :
  calculate_probability profiles [] = [] /\
  fst (calculate_probability_run profiles []) = 0%nat.
Proof. split; reflexivity. Qed.

(** By contrast a non-empty selection iterates every profile of the table. *)
Lemma nonempty_selection_iterates_all (profiles : dict (dict float))
    (s : string) (sel : list string) :
  fst (calculate_probability_run profiles (s :: sel)) = List.length profiles.
Proof.
  unfold calculate_probability_run.
  pose proof (score_loop_iterated (s :: sel) profiles (0%nat, [])) as H.
  unfold score_loop. destruct (fold_left _ profiles _) as [n results].
  exact H.
Qed.

(** C6, as the code has it.  The accessor never signals [UnknownRegion]: a
    region that is not in the catalog gets the empty symptom list, the default
    of [.get], and a region of the catalog gets its symptom list, in order. *)
Theorem symptoms_for_part_total (region : string) :
  symptoms_for_part region <> UnknownRegion /\
  (dict_mem region BODY_PART_SYMPTOMS = false -> symptoms_for_part region = Returned []) /\
  (forall symptoms,
      In (region, symptoms) BODY_PART_SYMPTOMS ->
      symptoms_for_part region = Returned symptoms).
Proof.
  unfold symptoms_for_part, dict_get, dict_mem. split; [discriminate|]. split.
  - destruct (dict_lookup region BODY_PART_SYMPTOMS); [discriminate|reflexivity].
  - intros symptoms H. rewrite (In_dict_lookup region BODY_PART_SYMPTOMS symptoms); auto.
    unfold BODY_PART_SYMPTOMS, dict_keys. simpl.
    repeat constructor; simpl; intuition discriminate.
Qed.

(** C6, as the claim has it, fails: ["Tail"] is not a region of the catalog
    and the accessor returns the empty list for it. *)
Lemma symptoms_for_part_unknown_region :
  ~ (dict_mem "Tail" BODY_PART_SYMPTOMS = false ->
     symptoms_for_part "Tail" = UnknownRegion).
Proof. intros H. specialize (H eq_refl). discriminate H. Qed.

(** C7.  A profile whose weights sum to zero fails the guard: nothing is
    divided, no confidence is stored for it and its disease is absent from
    the returned frame.  Every profile of the shipped table has a positive
    sum, hence passes the guard for every selection. *)
Theorem zero_sum_profile_excluded (profiles : dict (dict float)) (sel : list string)
    (disease : string) (W : dict float) :
  NoDup (dict_keys profiles) ->
  In (disease, W) profiles ->
  (max_possible_score W =? 0) = true ->
  disease_probability W sel = None /\
  ~ In disease (map fst (calculate_probability profiles sel)) /\
  Forall (fun item =>
            (0 <? max_possible_score (snd item)) = true /\
            forall sel', disease_probability (snd item) sel' <> None)
         DISEASE_PROFILES.
Proof.
  intros Hnd Hin Hz.
  assert (Hnone : disease_probability W sel = None).
  { unfold disease_probability.
    rewrite eqb_spec in Hz. rewrite ltb_spec.
    replace (SFltb (Prim2SF 0) (Prim2SF (max_possible_score W))) with false; [reflexivity|].
    revert Hz. F64.sf_order (Prim2SF (max_possible_score W)) (Prim2SF 0). }
  split; [exact Hnone|]. split.
  - intros H. apply in_map_iff in H. destruct H as ([d c] & Hd & H). simpl in Hd. subst d.
    apply calculate_probability_origin in H. destruct H as (_ & W' & HW' & Hp).
    apply (In_dict_lookup _ _ _ Hnd) in Hin. apply (In_dict_lookup _ _ _ Hnd) in HW'.
    congruence.
  - repeat constructor; simpl; unfold disease_probability;
      match goal with |- context [0 <? ?m] => replace (0 <? m) with true by reflexivity end;
      discriminate.
Qed.

Lemma zero_sum_profile_excluded_witness :
  disease_probability [("Yawning", 0)] ["Yawning"] = None /\
  ~ In "Boredom"
       (map fst (calculate_probability
                   [("Boredom", [("Yawning", 0)]); ("Migraine", migraine_profile)]
                   ["Yawning"; "Dizziness"])) /\
  Forall (fun item =>
            (0 <? max_possible_score (snd item)) = true /\
            forall sel', disease_probability (snd item) sel' <> None)
         DISEASE_PROFILES.
Proof.
  pose proof (zero_sum_profile_excluded
                [("Boredom", [("Yawning", 0)]); ("Migraine", migraine_profile)]
                ["Yawning"; "Dizziness"] "Boredom" [("Yawning", 0)]) as H.
  destruct H as (H1 & H2 & H3).
  - repeat constructor; simpl; intuition discriminate.
  - left. reflexivity.
  - reflexivity.
  - split; [|split]; [reflexivity | exact H2 | exact H3].
Defined.

(** ** The taxonomy against the profiles *)

(** C10, what the tables hold.  ["Joint stiffness"] is a symptom of the
    profile of Rheumatoid Arthritis and no region lists it; every other
    symptom of a profile is listed by exactly one region. *)
Theorem joint_stiffness_in_no_region :
  In "Joint stiffness" (dict_keys (dict_get DISEASE_PROFILES "Rheumatoid Arthritis" [])) /\
  regions_listing "Joint stiffness" = [] /\
  Forall (fun symptom =>
            symptom = "Joint stiffness" \/ List.length (regions_listing symptom) = 1%nat)
         profile_symptoms.
Proof.
  split; [simpl; tauto|]. split; [reflexivity|].
  unfold profile_symptoms. simpl.
  repeat (apply Forall_cons; [first [right; reflexivity | left; reflexivity]|]).
  apply Forall_nil.
Qed.

(** ** Symptoms that no profile mentions *)

Lemma not_referenced_lookup (profiles : dict (dict float)) (s d : string) (W : dict float) :
  referenced profiles s = false -> In (d, W) profiles -> dict_lookup s W = None.
Proof.
  intros Hr Hin. destruct (dict_lookup s W) eqn:E; [|reflexivity].
  assert (referenced profiles s = true); [|congruence].
  apply existsb_exists. exists (d, W). split; [assumption|].
  unfold dict_mem. simpl. now rewrite E.
Qed.

(** The symptoms a profile does not know leave the running score as it is. *)
Lemma fold_add_weight_filter (W : dict float) (keep : string -> bool) (sel : list string)
    (score : float) :
  (forall s, In s sel -> keep s = false -> dict_lookup s W = None) ->
  fold_left (add_weight W) sel score = fold_left (add_weight W) (filter keep sel) score.
Proof.
  revert score. induction sel as [|s sel IH]; intros score H; simpl; [reflexivity|].
  destruct (keep s) eqn:E; simpl.
  - apply IH. intros s' Hs'. apply H. now right.
  - unfold add_weight at 2. rewrite (H s (or_introl eq_refl) E).
    apply IH. intros s' Hs'. apply H. now right.
Qed.

Lemma match_score_referenced (profiles : dict (dict float)) (sel : list string)
    (d : string) (W : dict float) :
  In (d, W) profiles ->
  match_score W sel = match_score W (filter (referenced profiles) sel).
Proof.
  intros Hin. unfold match_score. apply fold_add_weight_filter.
  intros s _ Hr. exact (not_referenced_lookup profiles s d W Hr Hin).
Qed.

Lemma disease_probability_match_score (W : dict float) (sel sel' : list string) :
  match_score W sel = match_score W sel' ->
  disease_probability W sel = disease_probability W sel'.
Proof. unfold disease_probability, probability. now intros ->. Qed.

Lemma score_loop_ext (sel sel' : list string) (profiles : dict (dict float))
    (st : nat * dict float) :
  (forall d W, In (d, W) profiles ->
               disease_probability W sel = disease_probability W sel') ->
  fold_left (score_step sel) profiles st = fold_left (score_step sel') profiles st.
Proof.
  revert st. induction profiles as [|[d W] rest IH]; intros st H; simpl; [reflexivity|].
  rewrite (H d W (or_introl eq_refl)). apply IH. intros d' W' Hin. apply (H d' W'). now right.
Qed.

Lemma filter_nothing {A : Type} (f : A -> bool) (l : list A) :
  (forall x, In x l -> f x = false) -> filter f l = [].
Proof.
  induction l as [|x l IH]; intros H; simpl; [reflexivity|].
  rewrite (H x (or_introl eq_refl)). apply IH. intros y Hy. apply H. now right.
Qed.

(** With no matched symptom the score is the initial [0], and a profile that
    passes the guard gets the confidence [0]. *)
Lemma disease_probability_no_match (W : dict float) (sel : list string) (p : float) :
  match_score W sel = 0 -> disease_probability W sel = Some p -> p = 0.
Proof.
  unfold disease_probability, probability. intros ->.
  destruct (0 <? max_possible_score W) eqn:E; [|discriminate].
  rewrite (F64.zero_div_mul _ E). intros H. injection H as <-. reflexivity.
Qed.

Lemma calculate_probability_no_match (profiles : dict (dict float)) (sel : list string) :
  (forall d W, In (d, W) profiles -> match_score W sel = 0) ->
  calculate_probability profiles sel = [].
Proof.
  intros H. unfold calculate_probability, calculate_probability_run.
  destruct sel as [|s sel]; [reflexivity|].
  destruct (score_loop profiles (s :: sel)) as [n results] eqn:E. cbn [snd].
  rewrite filter_nothing; [reflexivity|].
  intros [d p] Hin. apply (proj1 (In_sort_values _ _)) in Hin.
  unfold score_loop in E.
  destruct (score_loop_origin (s :: sel) profiles (0%nat, []) d p) as [[]|(W & HW & Hp)];
    [rewrite E; exact Hin|].
  rewrite (disease_probability_no_match W (s :: sel) p (H d W HW) Hp). reflexivity.
Qed.

(** C8.  The symptoms of the selection that no profile mentions change no
    match score and not the returned frame; the function is total, so they
    raise nothing.  A selection made of such symptoms only has match score 0
    for every profile, confidence 0 for every profile that passes the guard,
    and the empty frame as result; for the shipped table and the selection
    ["Foot tingling"] every disease has confidence 0 and the frame is empty. *)
Theorem unreferenced_symptoms_ignored (profiles : dict (dict float)) (sel : list string) :
  (forall d W, In (d, W) profiles ->
               match_score W sel = match_score W (filter (referenced profiles) sel)) /\
  calculate_probability profiles sel =
    calculate_probability profiles (filter (referenced profiles) sel) /\
  (filter (referenced profiles) sel = [] ->
   (forall d W, In (d, W) profiles ->
                match_score W sel = 0 /\
                forall p, disease_probability W sel = Some p -> p = 0) /\
   calculate_probability profiles sel = []) /\
  (referenced DISEASE_PROFILES "Foot tingling" = false /\
   Forall (fun item => disease_probability (snd item) ["Foot tingling"] = Some 0)
          DISEASE_PROFILES /\
   calculate_probability DISEASE_PROFILES ["Foot tingling"] = []).
Proof.
  assert (Hscore : forall d W, In (d, W) profiles ->
            match_score W sel = match_score W (filter (referenced profiles) sel)).
  { intros d W. apply match_score_referenced. }
  assert (Hnone : filter (referenced profiles) sel = [] ->
            forall d W, In (d, W) profiles -> match_score W sel = 0).
  { intros E d W Hin. rewrite (Hscore d W Hin), E. reflexivity. }
  split; [exact Hscore|]. split; [|split].
  - destruct (filter (referenced profiles) sel) as [|s' sel'] eqn:E.
    + rewrite (calculate_probability_no_match profiles sel (Hnone eq_refl)). reflexivity.
    + destruct sel as [|s sel]; [discriminate E|].
      unfold calculate_probability, calculate_probability_run, score_loop.
      rewrite (score_loop_ext (s :: sel) (s' :: sel') profiles); [reflexivity|].
      intros d W Hin. apply disease_probability_match_score.
      exact (Hscore d W Hin).
  - intros E. split.
    + intros d W Hin. split; [exact (Hnone E d W Hin)|].
      intros p. apply disease_probability_no_match. exact (Hnone E d W Hin).
    + apply calculate_probability_no_match. exact (Hnone E).
  - split; [reflexivity|]. split; [|reflexivity].
    repeat (apply Forall_cons; [reflexivity|]). apply Forall_nil.
Qed.

(** ** Filtering, sorting, truncating *)

Lemma desc_below (row x : string * float) (rest : DataFrame) :
  notna row = true -> notna x = true ->
  (snd row <? snd x) = false -> Forall (desc x) rest ->
  Forall (desc row) (x :: rest).
Proof.
  unfold notna, isna. rewrite !negb_true_iff. intros Hrow Hx Hlt Hrest.
  assert (Hxr : desc row x) by (apply F64.ltb_false_leb; assumption).
  constructor; [exact Hxr|].
  apply Forall_forall. intros y Hy. rewrite Forall_forall in Hrest.
  unfold desc in *. exact (F64.leb_trans _ _ _ (Hrest y Hy) Hxr).
Qed.

Lemma insert_desc_sorted (row : string * float) (df : DataFrame) :
  notna row = true -> Forall (fun r => notna r = true) df ->
  StronglySorted desc df -> StronglySorted desc (insert_desc row df).
Proof.
  intros Hrow Hna Hs. induction Hs as [|x rest Hs IH Hx]; simpl.
  - repeat constructor.
  - inversion Hna as [|? ? Hnx Hnrest]; subst.
    destruct (snd row <? snd x) eqn:E.
    + constructor; [auto|].
      apply Forall_forall. intros y Hy. apply (proj1 (In_insert_desc _ _ _)) in Hy.
      destruct Hy as [->|Hy]; [now apply F64.ltb_leb|].
      rewrite Forall_forall in Hx. auto.
    + constructor; [now constructor|]. now apply desc_below.
Qed.

Lemma sort_desc_sorted (df : DataFrame) :
  Forall (fun r => notna r = true) df -> StronglySorted desc (sort_desc df).
Proof.
  induction df as [|row rest IH]; intros H; simpl; [constructor|].
  inversion H as [|? ? Hrow Hrest]; subst.
  apply insert_desc_sorted; [exact Hrow | | exact (IH Hrest)].
  apply Forall_forall. intros y Hy. apply (proj1 (In_sort_desc _ _)) in Hy.
  rewrite Forall_forall in Hrest. auto.
Qed.


Lemma length_insert_desc (row : string * float) (df : DataFrame) :
  List.length (insert_desc row df) = S (List.length df).
Proof.
  induction df as [|x rest IH]; simpl; [reflexivity|].
  destruct (snd row <? snd x); simpl; [now rewrite IH | reflexivity].
Qed.

Lemma length_sort_desc (df : DataFrame) : List.length (sort_desc df) = List.length df.
Proof.
  induction df as [|x rest IH]; simpl; [reflexivity|].
  now rewrite length_insert_desc, IH.
Qed.

Lemma length_sort_values (df : DataFrame) : List.length (sort_values df) = List.length df.
Proof.
  unfold sort_values. rewrite length_app, length_sort_desc.
  induction df as [|x rest IH]; simpl; [reflexivity|].
  unfold notna at 1. destruct (isna x); simpl; lia.
Qed.



Lemma Permutation_filter {A : Type} (f : A -> bool) (l l' : list A) :
  Permutation l l' -> Permutation (filter f l) (filter f l').
Proof.
  induction 1 as [|x l l' _ IH|x y l|l l' l'' _ IH1 _ IH2]; simpl.
  - constructor.
  - destruct (f x); [now constructor | assumption].
  - destruct (f x), (f y); try apply Permutation_refl. constructor.
  - now transitivity (filter f l').
Qed.


Lemma Permutation_insert_desc (row : string * float) (df : DataFrame) :
  Permutation (insert_desc row df) (row :: df).
Proof.
  induction df as [|x rest IH]; simpl; [apply Permutation_refl|].
  destruct (snd row <? snd x); [|apply Permutation_refl].
  apply perm_trans with (x :: row :: rest); [now apply perm_skip | apply perm_swap].
Qed.

Lemma Permutation_sort_desc (df : DataFrame) : Permutation (sort_desc df) df.
Proof.
  induction df as [|x rest IH]; simpl; [constructor|].
  apply perm_trans with (x :: sort_desc rest);
    [apply Permutation_insert_desc | now apply perm_skip].
Qed.

(** Sorting keeps every row, once. *)
Lemma Permutation_sort_values (df : DataFrame) : Permutation (sort_values df) df.
Proof.
  unfold sort_values.
  apply perm_trans with (filter notna df ++ filter isna df).
  - apply Permutation_app_tail, Permutation_sort_desc.
  - induction df as [|x rest IH]; simpl; [constructor|].
    unfold notna at 1. destruct (isna x); simpl.
    + apply Permutation_sym, Permutation_cons_app, Permutation_sym, IH.
    + now apply perm_skip.
Qed.



(** The routine that keeps tied rows in insertion order meets the promise of
    line 59, and so does the one that takes them in the opposite order. *)
Lemma sort_values_sorts_by_probability : sorts_by_probability sort_values.
Proof.
  intros df. split; [apply Permutation_sort_values|].
  exists (sort_desc (filter notna df)), (filter isna df).
  split; [reflexivity|]. split; [|split].
  - apply Forall_forall. intros r Hr. apply (proj1 (In_sort_desc _ _)) in Hr.
    now apply filter_In in Hr.
  - apply sort_desc_sorted. apply Forall_forall. intros r Hr. now apply filter_In in Hr.
  - apply Forall_forall. intros r Hr. now apply filter_In in Hr.
Qed.

Lemma sort_values_rev_sorts_by_probability :
  sorts_by_probability (fun df => sort_values (rev df)).
Proof.
  intros df. destruct (sort_values_sorts_by_probability (rev df)) as [Hp Hd].
  split; [|exact Hd].
  apply perm_trans with (rev df); [exact Hp | apply Permutation_sym, Permutation_rev].
Qed.

(** Two diseases with the same confidence: the two routines return them in
    different orders. *)
Example tied_rows_either_order :
  let profiles := [("A", [("s", 1)]); ("B", [("s", 1)])] in
  calculate_probability_by sort_values profiles ["s"] = [("A", 100); ("B", 100)] /\
  calculate_probability_by (fun df => sort_values (rev df)) profiles ["s"]
    = [("B", 100); ("A", 100)].
Proof. split; reflexivity. Qed.

(** [calculate_probability] is [calculate_probability_by] at the routine
    that keeps tied rows in insertion order. *)
Lemma calculate_probability_by_sort_values (profiles : dict (dict float))
    (sel : list string) :
  calculate_probability_by sort_values profiles sel = calculate_probability profiles sel.
Proof.
  unfold calculate_probability_by, calculate_probability, calculate_probability_run, results.
  destruct sel as [|s sel]; [reflexivity|].
  destruct (score_loop profiles (s :: sel)) as [n res]. reflexivity.
Qed.





(** The four confidences of that selection are pairwise different, so every
    routine gives the same frame, the one computed here. *)
Example ranking_without_ties :
  let sel := ["Fatigue"; "Dizziness"; "Shortness of breath"] in
  tie_free (filter above_5 (results DISEASE_PROFILES sel)) /\
  calculate_probability DISEASE_PROFILES sel =
    [ ("Anxiety Disorder", 66.666666666666671); ("Pneumonia", 33.333333333333329);
      ("Rheumatoid Arthritis", 22.727272727272727); ("Migraine", 20.512820512820518) ].
Proof.
  split; [|reflexivity].
  intros x y Hx Hy. vm_compute in Hx, Hy.
  destruct Hx as [<-|[<-|[<-|[<-|[]]]]], Hy as [<-|[<-|[<-|[<-|[]]]]];
    intros H1 H2; try reflexivity; vm_compute in H1, H2; discriminate.
Qed.

(** ** The orders in which a selection can be visited *)

Lemma arrangements_complete (fuel : nat) :
  forall (keys l : list string),
    NoDup l -> incl l keys -> (List.length l <= fuel)%nat -> In l (arrangements fuel keys).
Proof.
  induction fuel as [|fuel IH]; intros keys l Hnd Hincl Hlen.
  - destruct l; [now left | simpl in Hlen; lia].
  - destruct l as [|k l]; [now left|]. right.
    inversion Hnd as [|? ? Hk Hl]; subst.
    apply in_flat_map. exists k. split; [apply Hincl; now left|].
    apply in_map. apply IH; [assumption | | simpl in Hlen; lia].
    intros y Hy. apply in_in_remove.
    + intros ->. contradiction.
    + apply Hincl. now right.
Qed.

Lemma match_score_matched (W : dict float) (sel : list string) :
  match_score W sel = match_score W (matched W sel).
Proof.
  unfold match_score, matched. apply fold_add_weight_filter.
  intros s _. unfold dict_mem. destruct (dict_lookup s W); [discriminate|reflexivity].
Qed.

Lemma matched_arrangement (W : dict float) (sel : list string) :
  NoDup sel -> In (matched W sel) (arrangements (List.length W) (dict_keys W)).
Proof.
  intros Hnd.
  assert (Hincl : incl (matched W sel) (dict_keys W)).
  { intros s Hs. apply filter_In in Hs. now apply dict_mem_In. }
  assert (Hnd' : NoDup (matched W sel)) by now apply NoDup_filter.
  apply arrangements_complete; [assumption | assumption |].
  rewrite <- (length_map fst W). now apply NoDup_incl_length.
Qed.

Lemma covers_incl (l l' : list string) : incl l l' -> covers l l' = true.
Proof.
  intros H. apply forallb_forall. intros s Hs. apply existsb_exists.
  exists s. split; [now apply H | apply String.eqb_refl].
Qed.

Lemma shipped_profiles_monotone : forallb monotone_on (dict_values DISEASE_PROFILES) = true.
Proof. vm_compute. reflexivity. Qed.

(** C4.  For every disease of the shipped table, every selection [S] and
    every symptom [s] of the disease's profile that is not in [S]: the
    confidence stored for the selection [S] with [s] added, in whatever order
    the enlarged set is visited, is at least the confidence stored for [S]. *)
Theorem confidence_monotone (d : string) (W : dict float) (S0 S1 : list string)
    (s : string) :
  In (d, W) DISEASE_PROFILES ->
  NoDup S0 -> ~ In s S0 -> dict_mem s W = true ->
  Permutation S1 (s :: S0) ->
  exists c0 c1,
    disease_probability W S0 = Some c0 /\
    disease_probability W S1 = Some c1 /\
    (c0 <=? c1) = true.
Proof.
  intros HW Hnd Hs Hmem Hperm.
  assert (Hnd1 : NoDup S1).
  { apply (Permutation_NoDup (Permutation_sym Hperm)). now constructor. }
  assert (Hp : Permutation (matched W S1) (s :: matched W S0)).
  { unfold matched. apply (Permutation_filter (fun s => dict_mem s W)) in Hperm.
    simpl in Hperm. now rewrite Hmem in Hperm. }
  pose proof shipped_profiles_monotone as Hall.
  rewrite forallb_forall in Hall.
  specialize (Hall W (in_map snd _ _ HW)). unfold monotone_on in Hall.
  rewrite forallb_forall in Hall.
  specialize (Hall _ (matched_arrangement W S0 Hnd)).
  rewrite forallb_forall in Hall.
  specialize (Hall _ (matched_arrangement W S1 Hnd1)).
  rewrite (Permutation_length Hp) in Hall. simpl List.length in Hall.
  rewrite Nat.eqb_refl, covers_incl in Hall.
  - simpl in Hall.
    rewrite <- (disease_probability_match_score W S0 _ (match_score_matched W S0)) in Hall.
    rewrite <- (disease_probability_match_score W S1 _ (match_score_matched W S1)) in Hall.
    destruct (disease_probability W S0) as [c0|]; [|discriminate].
    destruct (disease_probability W S1) as [c1|]; [|discriminate].
    exists c0, c1. auto.
  - intros y Hy. apply (Permutation_in y (Permutation_sym Hp)). now right.
Qed.

Lemma confidence_monotone_witness :
  exists c0 c1,
    disease_probability migraine_profile ["Dizziness"; "Foot tingling"] = Some c0 /\
    disease_probability migraine_profile ["Foot tingling"; "Severe headache"; "Dizziness"]
      = Some c1 /\
    (c0 <=? c1) = true.
Proof.
  apply (confidence_monotone "Migraine" migraine_profile
           ["Dizziness"; "Foot tingling"]
           ["Foot tingling"; "Severe headache"; "Dizziness"] "Severe headache").
  - left. reflexivity.
  - repeat constructor; simpl; intuition discriminate.
  - simpl. intuition discriminate.
  - reflexivity.
  - apply perm_trans with ("Severe headache" :: "Foot tingling" :: ["Dizziness"]).
    + apply perm_swap.
    + apply perm_skip. apply perm_swap.
Defined.

(** The monotonicity rests on the shipped weights.  Binary64 addition rounds,
    so the order of the visit shows in the last digits of a sum: with a weight
    small enough to vanish in the rounding, the larger selection visited in
    another order can get the smaller confidence. *)
Example confidence_not_monotone_for_all_tables :
  let W := [("a", 0.95); ("b", 0.6); ("c", 0.4); ("e", 1e-17); ("t", 0.5)] in
  disease_probability W ["b"; "c"; "a"] = Some 79.591836734693885 /\
  disease_probability W ["a"; "b"; "c"; "e"] = Some 79.591836734693871.
Proof. split; reflexivity. Qed.

(** ** The full Migraine selection and the cap *)

Lemma float_neq_by_ltb (x y : float) : (x <? y) = true -> y <> x.
Proof. intros H ->. now rewrite F64.ltb_irrefl in H. Qed.

(** Visited with the headache last, the three weights add up to [1.95],
    while the profile's own order gives [1.9499999999999997]: the quotient is
    above 1. *)
Lemma headache_last_scores :
  match_score migraine_profile headache_last = 1.95 /\
  max_possible_score migraine_profile = 1.9499999999999997 /\
  probability migraine_profile headache_last = 100.00000000000003.
Proof. repeat split; reflexivity. Qed.

(** C5, as the claim has it, fails: visited with the headache last, the
    selection of exactly the three Migraine symptoms has a match score that
    differs from the maximum possible score. *)
Lemma full_migraine_score_not_max :
  ~ (Permutation headache_last migraine_symptoms ->
     match_score migraine_profile headache_last = max_possible_score migraine_profile /\
     In ("Migraine", 100) (calculate_probability DISEASE_PROFILES headache_last)).
Proof.
  intros H.
  assert (Hp : Permutation headache_last migraine_symptoms).
  { unfold headache_last, migraine_symptoms. simpl.
    apply perm_trans with ("Blurred vision" :: "Severe headache" :: ["Dizziness"]).
    - apply perm_skip. apply perm_swap.
    - apply perm_swap. }
  destruct (H Hp) as [E _]. revert E. apply float_neq_by_ltb. reflexivity.
Qed.

Lemma full_migraine_all_visits :
  Forall (fun sel => List.length sel = 3%nat -> full_migraine_outcome sel)
         (arrangements 3 migraine_symptoms).
Proof.
  vm_compute arrangements.
  repeat (apply Forall_cons;
          [first [ intros H; discriminate H
                 | intros _; repeat split; reflexivity ]|]).
  apply Forall_nil.
Qed.

(** C5, as the code has it.  When the selection is exactly the three Migraine
    symptoms, in whatever order they are visited, the match score is at least
    the maximum possible score, the confidence stored for Migraine is exactly
    100 and Migraine heads the returned frame with 100; visited in the order of
    the profile, the match score equals the maximum possible score. *)
Theorem full_migraine_confidence_100 (sel : list string) :
  Permutation sel migraine_symptoms ->
  (max_possible_score migraine_profile <=? match_score migraine_profile sel) = true /\
  disease_probability migraine_profile sel = Some 100 /\
  calculate_probability DISEASE_PROFILES sel =
    [("Migraine", 100); ("Anxiety Disorder", 20.833333333333336)] /\
  match_score migraine_profile migraine_symptoms = max_possible_score migraine_profile.
Proof.
  intros Hp.
  assert (Hnd : NoDup sel).
  { apply (Permutation_NoDup (Permutation_sym Hp)).
    unfold migraine_symptoms. simpl. repeat constructor; simpl; intuition discriminate. }
  assert (Hin : In sel (arrangements 3 migraine_symptoms)).
  { apply arrangements_complete; [exact Hnd | |].
    - intros s Hs. exact (Permutation_in s Hp Hs).
    - rewrite (Permutation_length Hp). apply Nat.le_refl. }
  pose proof full_migraine_all_visits as Hall. rewrite Forall_forall in Hall.
  destruct (Hall sel Hin (Permutation_length Hp)) as (H1 & H2 & H3).
  split; [exact H1|]. split; [exact H2|]. split; [exact H3|]. reflexivity.
Qed.

Lemma full_migraine_confidence_100_witness :
  (max_possible_score migraine_profile <=? match_score migraine_profile headache_last)
    = true /\
  disease_probability migraine_profile headache_last = Some 100 /\
  calculate_probability DISEASE_PROFILES headache_last =
    [("Migraine", 100); ("Anxiety Disorder", 20.833333333333336)] /\
  match_score migraine_profile migraine_symptoms = max_possible_score migraine_profile.
Proof.
  apply (full_migraine_confidence_100 headache_last).
  unfold headache_last, migraine_symptoms. simpl.
  apply perm_trans with ("Blurred vision" :: "Severe headache" :: ["Dizziness"]).
  - apply perm_skip. apply perm_swap.
  - apply perm_swap.
Defined.

(** C9, as the claim has it, fails on the shipped table: the weights of the
    Migraine profile are non-negative and [headache_last] has no duplicate,
    yet the match score exceeds the maximum possible score and the cap changes
    the quotient. *)
Lemma cap_changes_full_migraine :
  ~ (NoDup headache_last ->
     Forall (fun weight => (0 <=? weight) = true) (dict_values migraine_profile) ->
     (match_score migraine_profile headache_last <=? max_possible_score migraine_profile)
       = true /\
     py_min (probability migraine_profile headache_last) 100
       = probability migraine_profile headache_last).
Proof.
  intros H.
  assert (Hnd : NoDup headache_last).
  { unfold headache_last. repeat constructor; simpl; intuition discriminate. }
  assert (Hw : Forall (fun weight => (0 <=? weight) = true) (dict_values migraine_profile)).
  { repeat constructor. }
  destruct (H Hnd Hw) as [Hle _]. discriminate Hle.
Qed.

(** C9, as the code has it.  Whatever the profile and the selection, the
    confidence stored for a profile that passes the guard is never above 100:
    it is 100 when the quotient is above 100 and the quotient itself otherwise,
    and unless it is NaN it is at most 100. *)
Theorem cap_bounds_confidence (W : dict float) (sel : list string) (c : float) :
  disease_probability W sel = Some c ->
  (100 <? c) = false /\
  ((100 <? probability W sel) = true -> c = 100) /\
  ((100 <? probability W sel) = false -> c = probability W sel) /\
  (is_nan c = false -> (c <=? 100) = true).
Proof.
  unfold disease_probability. destruct (0 <? max_possible_score W); [|discriminate].
  intros H. injection H as <-.
  destruct (py_min_100 (probability W sel)) as (H1 & H2 & H3).
  repeat split; try assumption.
  intros Hnan. apply F64.ltb_false_leb; [reflexivity | exact Hnan | exact H1].
Qed.

Lemma cap_bounds_confidence_witness :
  (100 <? 100) = false /\
  ((100 <? probability migraine_profile headache_last) = true -> 100 = 100) /\
  ((100 <? probability migraine_profile headache_last) = false ->
   100 = probability migraine_profile headache_last) /\
  (is_nan 100 = false -> (100 <=? 100) = true).
Proof.
  apply (cap_bounds_confidence migraine_profile headache_last 100).
  reflexivity.
Defined.


(** ** The [results] dictionary and the rows of the frame *)

Section DictSet.

Context {V : Type}.

Lemma dict_set_keys (k k' : string) (v : V) (d : dict V) :
  In k' (dict_keys (dict_set k v d)) <-> k' = k \/ In k' (dict_keys d).
Proof.
  induction d as [|[k0 v0] rest IH]; simpl.
  - intuition congruence.
  - destruct (String.eqb_spec k k0) as [->|Hne]; simpl; [|rewrite IH]; intuition congruence.
Qed.

Lemma dict_set_NoDup (k : string) (v : V) (d : dict V) :
  NoDup (dict_keys d) -> NoDup (dict_keys (dict_set k v d)).
Proof.
  induction d as [|[k0 v0] rest IH]; simpl; intros H.
  - repeat constructor. intros [].
  - inversion H as [|? ? Hk0 Hrest]; subst.
    destruct (String.eqb_spec k k0) as [->|Hne]; simpl; constructor; auto.
    intros Hin. apply dict_set_keys in Hin. destruct Hin as [->|Hin]; [now apply Hne | auto].
Qed.

Lemma dict_set_length (k : string) (v : V) (d : dict V) :
  (List.length (dict_set k v d) <= S (List.length d))%nat.
Proof.
  induction d as [|[k0 v0] rest IH]; simpl; [lia|].
  destruct (String.eqb k k0); simpl; lia.
Qed.

Lemma In_dict_set_same (k : string) (v : V) (d : dict V) : In (k, v) (dict_set k v d).
Proof.
  induction d as [|[k0 v0] rest IH]; simpl; [now left|].
  destruct (String.eqb_spec k k0) as [->|_]; [now left | now right].
Qed.

Lemma In_dict_set_other (k k' : string) (v v' : V) (d : dict V) :
  k' <> k -> In (k', v') d -> In (k', v') (dict_set k v d).
Proof.
  intros Hne. induction d as [|[k0 v0] rest IH]; simpl; [tauto|].
  destruct (String.eqb_spec k k0) as [->|_]; simpl.
  - intros [E|H]; [|now right]. injection E as -> ->. now contradiction Hne.
  - intros [E|H]; [now left | right; auto].
Qed.

End DictSet.

Lemma score_loop_NoDup (sel : list string) (profiles : dict (dict float))
    (st : nat * dict float) :
  NoDup (dict_keys (snd st)) ->
  NoDup (dict_keys (snd (fold_left (score_step sel) profiles st))).
Proof.
  revert st. induction profiles as [|[d W] rest IH]; intros st H; simpl; [exact H|].
  apply IH. simpl. destruct (disease_probability W sel); [now apply dict_set_NoDup | exact H].
Qed.

Lemma score_loop_length (sel : list string) (profiles : dict (dict float))
    (st : nat * dict float) :
  (List.length (snd (fold_left (score_step sel) profiles st))
   <= List.length (snd st) + List.length profiles)%nat.
Proof.
  revert st. induction profiles as [|[d W] rest IH]; intros st; simpl; [lia|].
  etransitivity; [apply IH|]. simpl.
  destruct (disease_probability W sel); [|lia].
  pose proof (dict_set_length d f (snd st)). lia.
Qed.

Lemma score_loop_keeps (sel : list string) (profiles : dict (dict float))
    (st : nat * dict float) (d : string) (c : float) :
  In (d, c) (snd st) -> ~ In d (dict_keys profiles) ->
  In (d, c) (snd (fold_left (score_step sel) profiles st)).
Proof.
  revert st. induction profiles as [|[d' W'] rest IH]; intros st Hin Hd; simpl; [exact Hin|].
  simpl in Hd. apply IH; [|tauto]. simpl.
  destruct (disease_probability W' sel); [|exact Hin].
  apply In_dict_set_other; [|exact Hin]. intros ->. tauto.
Qed.

(** With distinct disease names, every profile that passes the guard has its
    confidence in [results] when the loop ends. *)
Lemma score_loop_complete (sel : list string) (profiles : dict (dict float))
    (st : nat * dict float) (d : string) (W : dict float) (c : float) :
  NoDup (dict_keys profiles) -> In (d, W) profiles ->
  disease_probability W sel = Some c ->
  In (d, c) (snd (fold_left (score_step sel) profiles st)).
Proof.
  revert st. induction profiles as [|[d' W'] rest IH]; intros st Hnd Hin Hc; [destruct Hin|].
  simpl in Hnd. inversion Hnd as [|? ? Hd' Hrest]; subst. simpl.
  destruct Hin as [E|Hin].
  - injection E as -> ->. apply score_loop_keeps; [|exact Hd'].
    simpl. rewrite Hc. apply In_dict_set_same.
  - now apply IH.
Qed.

Lemma NoDup_keys_filter {V : Type} (f : string * V -> bool) (d : dict V) :
  NoDup (dict_keys d) -> NoDup (dict_keys (filter f d)).
Proof.
  induction d as [|x rest IH]; simpl; intros H; [constructor|].
  inversion H as [|? ? Hx Hrest]; subst.
  destruct (f x); simpl; [|auto]. constructor; [|auto].
  intros Hin. apply Hx. apply in_map_iff in Hin. destruct Hin as (y & Hy & Hin).
  apply filter_In in Hin. rewrite <- Hy. apply in_map. tauto.
Qed.

Lemma NoDup_keys_firstn {V : Type} (n : nat) (d : dict V) :
  NoDup (dict_keys d) -> NoDup (dict_keys (firstn n d)).
Proof.
  revert n. induction d as [|x rest IH]; intros [|n] H; simpl; try constructor.
  - inversion H as [|? ? Hx Hrest]; subst. intros Hin. apply Hx.
    apply in_map_iff in Hin. destruct Hin as (y & Hy & Hin). rewrite <- Hy. apply in_map.
    rewrite <- (firstn_skipn n rest). apply in_or_app. now left.
  - inversion H; subst. now apply IH.
Qed.

(** The frame before [head(5)] has at most as many rows as the table has
    profiles. *)
Lemma filtered_frame_length (profiles : dict (dict float)) (sel : list string) :
  (List.length (filter above_5 (sort_values (results profiles sel)))
   <= List.length profiles)%nat.
Proof.
  pose proof (filter_length_le above_5 (sort_values (results profiles sel))) as H1.
  rewrite length_sort_values in H1.
  pose proof (score_loop_length sel profiles (0%nat, [])) as H2. cbn [snd List.length] in H2.
  unfold results, score_loop in *. lia.
Qed.

(** With distinct disease names and at most five profiles, a confidence above
    5 is a row of the returned frame. *)
Lemma output_complete (profiles : dict (dict float)) (sel : list string)
    (d : string) (W : dict float) (c : float) :
  NoDup (dict_keys profiles) -> (List.length profiles <= 5)%nat -> sel <> [] ->
  In (d, W) profiles -> disease_probability W sel = Some c -> (5 <? c) = true ->
  In (d, c) (calculate_probability profiles sel).
Proof.
  intros Hnd Hlen Hsel Hin Hc Hgt.
  destruct sel as [|s sel]; [congruence|].
  pose proof (filtered_frame_length profiles (s :: sel)) as Hl.
  unfold calculate_probability, calculate_probability_run.
  unfold results in Hl.
  pose proof (score_loop_complete (s :: sel) profiles (0%nat, []) d W c Hnd Hin Hc) as Hres.
  unfold score_loop in *.
  destruct (fold_left (score_step (s :: sel)) profiles (0%nat, [])) as [n res].
  cbn [snd] in *. unfold head. rewrite firstn_all2 by lia.
  apply filter_In. split; [|exact Hgt].
  apply (Permutation_in _ (Permutation_sym (Permutation_sort_values res))). exact Hres.
Qed.

(** ** More on the returned frame *)

(** X1.  Whatever the table and the selection, no disease has two rows in
    the returned frame. *)
Theorem returned_diseases_distinct (profiles : dict (dict float)) (sel : list string) :
  NoDup (map fst (calculate_probability profiles sel)).
Proof.
  unfold calculate_probability, calculate_probability_run.
  destruct sel as [|s sel]; [constructor|].
  pose proof (score_loop_NoDup (s :: sel) profiles (0%nat, []) (NoDup_nil _)) as H.
  unfold score_loop.
  destruct (fold_left (score_step (s :: sel)) profiles (0%nat, [])) as [n res].
  cbn [snd] in *. unfold head.
  apply (NoDup_keys_firstn 5), NoDup_keys_filter.
  apply (Permutation_NoDup (l := dict_keys res)); [|exact H].
  apply Permutation_map, Permutation_sym, Permutation_sort_values.
Qed.

(** X2.  For a table with distinct disease names and at most five profiles
    and a non-empty selection, the rows of the returned frame are exactly
    the diseases whose profile passes the guard with a confidence above 5,
    each with that confidence: [head(5)] cuts nothing off. *)
Theorem returned_rows_characterised (profiles : dict (dict float)) (sel : list string)
    (d : string) (c : float) :
  NoDup (dict_keys profiles) -> (List.length profiles <= 5)%nat -> sel <> [] ->
  (In (d, c) (calculate_probability profiles sel) <->
   (5 <? c) = true /\
   exists W, In (d, W) profiles /\ disease_probability W sel = Some c).
Proof.
  intros Hnd Hlen Hsel. split.
  - apply calculate_probability_origin.
  - intros (Hgt & W & Hin & Hc). exact (output_complete profiles sel d W c Hnd Hlen Hsel Hin Hc Hgt).
Qed.

Lemma returned_rows_characterised_witness :
  In ("Migraine", 100) (calculate_probability DISEASE_PROFILES headache_last) <->
  (5 <? 100) = true /\
  exists W, In ("Migraine", W) DISEASE_PROFILES /\
            disease_probability W headache_last = Some 100.
Proof.
  apply (returned_rows_characterised DISEASE_PROFILES headache_last "Migraine" 100).
  - simpl. repeat constructor; simpl; intuition discriminate.
  - simpl. lia.
  - discriminate.
Defined.

(** ** What the shipped weights give, over every visit *)

Lemma on_all_visits_sound (W : dict float) (check : list string -> float -> bool)
    (sel : list string) :
  on_all_visits W check = true -> NoDup sel ->
  exists c, disease_probability W sel = Some c /\ check (matched W sel) c = true.
Proof.
  intros H Hnd. unfold on_all_visits in H. rewrite forallb_forall in H.
  specialize (H _ (matched_arrangement W sel Hnd)).
  rewrite <- (disease_probability_match_score W sel _ (match_score_matched W sel)) in H.
  destruct (disease_probability W sel) as [c|]; [|discriminate]. now exists c.
Qed.

Lemma shipped_visits (check : dict float -> list string -> float -> bool)
    (d : string) (W : dict float) :
  forallb (fun item => on_all_visits (snd item) (check (snd item))) DISEASE_PROFILES = true ->
  In (d, W) DISEASE_PROFILES -> on_all_visits W (check W) = true.
Proof. intros H Hin. rewrite forallb_forall in H. exact (H (d, W) Hin). Qed.

Lemma shipped_matched_above_5 :
  forallb (fun item => on_all_visits (snd item) matched_above_5) DISEASE_PROFILES = true.
Proof. vm_compute. reflexivity. Qed.

Lemma shipped_full_match_check :
  forallb (fun item => on_all_visits (snd item) (full_match_check (snd item)))
          DISEASE_PROFILES = true.
Proof. vm_compute. reflexivity. Qed.

Lemma shipped_progress_in_range :
  forallb (fun item => on_all_visits (snd item) progress_in_range) DISEASE_PROFILES = true.
Proof. vm_compute. reflexivity. Qed.

Lemma rheumatoid_bounded_without_stiffness :
  on_all_visits rheumatoid_profile (bounded_without_stiffness 63.636363636363626) = true.
Proof. vm_compute. reflexivity. Qed.

Lemma shipped_profiles_NoDup : NoDup (dict_keys DISEASE_PROFILES).
Proof. simpl. repeat constructor; simpl; intuition discriminate. Qed.

Lemma set_mem_In (s : string) (xs : list string) : set_mem s xs = true <-> In s xs.
Proof.
  unfold set_mem. rewrite existsb_exists. split.
  - intros (x & Hx & E). apply String.eqb_eq in E. now subst.
  - intros H. exists s. split; [assumption | apply String.eqb_refl].
Qed.

Lemma covers_true_incl (l l' : list string) : covers l l' = true -> incl l l'.
Proof.
  unfold covers. rewrite forallb_forall. intros H s Hs. apply set_mem_In. exact (H s Hs).
Qed.

Lemma In_matched (W : dict float) (sel : list string) (s : string) :
  In s (matched W sel) <-> In s sel /\ In s (dict_keys W).
Proof. unfold matched. rewrite filter_In, dict_mem_In. tauto. Qed.

(** X3.  On the shipped table the returned frame is empty, for a selection
    without duplicates, exactly when no selected symptom occurs in a profile:
    one symptom of one profile is enough for a row. *)
Theorem no_match_iff_unreferenced (sel : list string) :
  NoDup sel ->
  (calculate_probability DISEASE_PROFILES sel = [] <->
   filter (referenced DISEASE_PROFILES) sel = []).
Proof.
  intros Hnd. split.
  - intros Hempty. destruct (filter (referenced DISEASE_PROFILES) sel) as [|s rest] eqn:E;
      [reflexivity|exfalso].
    assert (Hs : In s (filter (referenced DISEASE_PROFILES) sel)) by (rewrite E; now left).
    apply filter_In in Hs. destruct Hs as [Hs Href].
    apply existsb_exists in Href. destruct Href as ([d W] & HW & Hmem). simpl in Hmem.
    destruct (on_all_visits_sound W matched_above_5 sel) as (c & Hc & Hgt); [|exact Hnd|].
    { exact (shipped_visits (fun _ => matched_above_5) d W shipped_matched_above_5 HW). }
    assert (Hm : In s (matched W sel)) by (apply In_matched; split; [|apply dict_mem_In]; assumption).
    destruct (matched W sel) as [|m ms]; [destruct Hm|]. simpl in Hgt.
    assert (Hsel : sel <> []) by (intros ->; destruct Hs).
    pose proof (output_complete DISEASE_PROFILES sel d W c shipped_profiles_NoDup
                  (Nat.le_refl 5) Hsel HW Hc Hgt) as Hrow.
    rewrite Hempty in Hrow. destruct Hrow.
  - intros E. apply calculate_probability_no_match. intros d W HW.
    rewrite (match_score_referenced DISEASE_PROFILES sel d W HW), E. reflexivity.
Qed.

Lemma no_match_iff_unreferenced_witness :
  calculate_probability DISEASE_PROFILES ["Foot tingling"; "Chest pain"] = [] <->
  filter (referenced DISEASE_PROFILES) ["Foot tingling"; "Chest pain"] = [].
Proof.
  apply (no_match_iff_unreferenced ["Foot tingling"; "Chest pain"]).
  repeat constructor; simpl; intuition discriminate.
Defined.

(** X4.  On the shipped table, for a selection without duplicates: a
    confidence of 100 is stored for a disease only when every symptom of its
    profile is selected, and when every symptom is selected the confidence is
    at least 99.999999999999972 (the sums round, so it need not be 100). *)
Theorem full_confidence_needs_all (d : string) (W : dict float) (sel : list string)
    (c : float) :
  In (d, W) DISEASE_PROFILES -> NoDup sel ->
  disease_probability W sel = Some c ->
  ((c =? 100) = true -> incl (dict_keys W) sel) /\
  (incl (dict_keys W) sel -> (99.999999999999972 <=? c) = true).
Proof.
  intros HW Hnd Hc.
  destruct (on_all_visits_sound W (full_match_check W) sel) as (c' & Hc' & Hcheck);
    [exact (shipped_visits full_match_check d W shipped_full_match_check HW) | exact Hnd |].
  assert (c' = c) by congruence. subst c'.
  unfold full_match_check in Hcheck. apply andb_true_iff in Hcheck.
  destruct Hcheck as [H1 H2]. split.
  - intros E. rewrite E in H1. simpl in H1. apply covers_true_incl in H1.
    intros s Hs. apply H1 in Hs. now apply In_matched in Hs.
  - intros Hall. rewrite covers_incl in H2; [exact H2|].
    intros s Hs. apply In_matched. auto.
Qed.

Lemma full_confidence_needs_all_witness :
  let sel := ["Shortness of breath"; "Fever"; "Persistent cough"] in
  let W := dict_get DISEASE_PROFILES "Pneumonia" [] in
  ((99.999999999999972 =? 100) = true -> incl (dict_keys W) sel) /\
  (incl (dict_keys W) sel -> (99.999999999999972 <=? 99.999999999999972) = true).
Proof.
  apply (full_confidence_needs_all "Pneumonia"
           (dict_get DISEASE_PROFILES "Pneumonia" [])
           ["Shortness of breath"; "Fever"; "Persistent cough"] 99.999999999999972).
  - right. left. reflexivity.
  - repeat constructor; simpl; intuition discriminate.
  - reflexivity.
Defined.

(** All three symptoms of Pneumonia selected and visited with the cough
    last: the stored confidence is not 100. *)
Example full_pneumonia_below_100 :
  calculate_probability DISEASE_PROFILES ["Shortness of breath"; "Fever"; "Persistent cough"]
  = [("Pneumonia", 99.999999999999972); ("Anxiety Disorder", 20.833333333333336)].
Proof. reflexivity. Qed.

(** X5.  A selection made of symptoms of the taxonomy never gives Rheumatoid
    Arthritis more than 63.636363636363626: ["Joint stiffness"] is in its
    profile and in no region. *)
Theorem rheumatoid_confidence_bounded (sel : list string) (c : float) :
  NoDup sel -> incl sel (taxonomy_symptoms BODY_PART_SYMPTOMS) ->
  disease_probability rheumatoid_profile sel = Some c ->
  (c <=? 63.636363636363626) = true.
Proof.
  intros Hnd Hincl Hc.
  destruct (on_all_visits_sound rheumatoid_profile
              (bounded_without_stiffness 63.636363636363626) sel
              rheumatoid_bounded_without_stiffness Hnd) as (c' & Hc' & Hcheck).
  assert (c' = c) by congruence. subst c'.
  unfold bounded_without_stiffness in Hcheck. apply orb_true_iff in Hcheck.
  destruct Hcheck as [Hmem|Hle]; [exfalso|exact Hle].
  apply set_mem_In, In_matched in Hmem. destruct Hmem as [Hmem _].
  apply Hincl in Hmem. simpl in Hmem. intuition discriminate.
Qed.

Lemma rheumatoid_confidence_bounded_witness :
  (63.636363636363626 <=? 63.636363636363626) = true.
Proof.
  apply (rheumatoid_confidence_bounded ["Fatigue"; "Joint swelling"; "Fever"]).
  - repeat constructor; simpl; intuition discriminate.
  - intros s Hs. simpl in Hs. simpl. intuition (subst; tauto).
  - reflexivity.
Defined.

(** X9.  On the shipped table, for a selection without duplicates, every
    value handed to the progress bar lies between 0 and 1. *)
Theorem progress_values_in_range (sel : list string) (v : float) :
  NoDup sel ->
  In v (progress_values (calculate_probability DISEASE_PROFILES sel)) ->
  (0 <=? v) = true /\ (v <=? 1) = true.
Proof.
  intros Hnd Hv. unfold progress_values in Hv. apply in_map_iff in Hv.
  destruct Hv as ([d c] & <- & Hrow). simpl.
  apply calculate_probability_origin in Hrow. destruct Hrow as (_ & W & HW & Hc).
  destruct (on_all_visits_sound W progress_in_range sel) as (c' & Hc' & Hcheck);
    [exact (shipped_visits (fun _ => progress_in_range) d W shipped_progress_in_range HW)
    | exact Hnd |].
  assert (c' = c) by congruence. subst c'.
  unfold progress_in_range in Hcheck. now apply andb_true_iff in Hcheck.
Qed.

Lemma progress_values_in_range_witness :
  (0 <=? 100 / 100) = true /\ (100 / 100 <=? 1) = true.
Proof.
  apply (progress_values_in_range headache_last (100 / 100)).
  - repeat constructor; simpl; intuition discriminate.
  - left. reflexivity.
Defined.

(** ** The selection kept across runs *)

Lemma In_py_set (s : string) (l : list string) : In s (py_set l) <-> In s l.
Proof. apply nodup_In. Qed.

Lemma In_set_difference (s : string) (a b : list string) :
  In s (set_difference a b) <-> In s a /\ ~ In s b.
Proof.
  unfold set_difference. rewrite filter_In, negb_true_iff.
  pose proof (set_mem_In s b) as H. destruct (set_mem s b); intuition congruence.
Qed.

Lemma In_set_intersection (s : string) (a b : list string) :
  In s (set_intersection a b) <-> In s a /\ In s b.
Proof. unfold set_intersection. now rewrite filter_In, set_mem_In. Qed.

Lemma In_set_update (s : string) (l a : list string) :
  In s (set_update a l) <-> In s a \/ In s l.
Proof.
  unfold set_update. revert a. induction l as [|x l IH]; intros a; simpl; [tauto|].
  rewrite IH. destruct (set_mem x a) eqn:E.
  - apply set_mem_In in E. intuition (subst; auto).
  - rewrite in_app_iff. simpl. intuition.
Qed.

Lemma NoDup_set_update (l a : list string) : NoDup a -> NoDup (set_update a l).
Proof.
  unfold set_update. revert a. induction l as [|x l IH]; intros a H; simpl; [exact H|].
  apply IH. destruct (set_mem x a) eqn:E; [exact H|].
  apply NoDup_app; [exact H | repeat constructor; intros [] |].
  intros y Hy [<-|[]]. apply set_mem_In in Hy. congruence.
Qed.

(** After lines 122 and 124 the selection has what the multiselect handed
    back and, of what it had, the symptoms that are not of the part shown. *)
Lemma In_update_selection (selected symptoms_for_part new_selections : list string)
    (s : string) :
  In s (update_selection selected symptoms_for_part new_selections) <->
  In s new_selections \/ (In s selected /\ ~ In s symptoms_for_part).
Proof.
  unfold update_selection, set_difference_update.
  rewrite In_set_update, !In_set_difference, !In_py_set.
  destruct (in_dec string_dec s new_selections); tauto.
Qed.

Lemma NoDup_update_selection (selected symptoms_for_part new_selections : list string) :
  NoDup selected -> NoDup (update_selection selected symptoms_for_part new_selections).
Proof.
  intros H. unfold update_selection, set_difference_update, set_difference.
  now apply NoDup_set_update, NoDup_filter.
Qed.

(** X6.  The update of the selection (lines 122-124) replaces, among the
    symptoms of the part shown, the selected ones by those the multiselect
    hands back, and leaves the selected symptoms of the other parts alone; a
    selection without duplicates stays so; and when the multiselect hands back
    its preselection (line 116), the selection keeps its elements. *)
Theorem update_selection_spec (selected symptoms_for_part new_selections : list string) :
  (forall s,
      In s (update_selection selected symptoms_for_part new_selections) <->
      In s new_selections \/ (In s selected /\ ~ In s symptoms_for_part)) /\
  (NoDup selected ->
   NoDup (update_selection selected symptoms_for_part new_selections)) /\
  (forall s,
      In s (update_selection selected symptoms_for_part
              (multiselect_default selected symptoms_for_part)) <->
      In s selected).
Proof.
  split; [apply In_update_selection|]. split; [apply NoDup_update_selection|].
  intros s. rewrite In_update_selection. unfold multiselect_default.
  rewrite In_set_intersection, In_py_set.
  destruct (in_dec string_dec s symptoms_for_part); tauto.
Qed.

Lemma py_index_In (l : list string) (x : string) :
  In x l -> exists i, py_index l x = Some i.
Proof.
  induction l as [|y l IH]; simpl; [tauto|].
  destruct (String.eqb_spec x y) as [->|Hne]; [now exists 0%nat|].
  intros [E|H]; [congruence|]. destruct (IH H) as [i ->]. now exists (S i).
Qed.

Lemma dict_get_taxonomy (parts : dict (list string)) (part : string) :
  incl (dict_get parts part []) (taxonomy_symptoms parts).
Proof.
  unfold dict_get. destruct (dict_lookup part parts) as [l|] eqn:E; [|intros s []].
  apply dict_lookup_In in E. intros s Hs. apply in_flat_map. now exists (part, l).
Qed.

(** One run from a session in order, with what the widgets can hand back. *)
Lemma script_run_ok (parts : dict (list string)) (st : session_state) (ui : interaction) :
  parts <> [] -> session_ok parts st -> valid_interaction parts ui ->
  exists selected,
    script_run parts st ui =
      Done {| selected_symptoms := Some selected;
              current_part := Some (body_part_radio ui) |} /\
    session_ok parts {| selected_symptoms := Some selected;
                        current_part := Some (body_part_radio ui) |}.
Proof.
  intros Hparts [Hpart Hsel] [Hradio Hmulti].
  unfold script_run.
  assert (Hstart : exists part,
             match current_part st with
             | Some part => Done part
             | None => match dict_keys parts with
                       | [] => Raised IndexError
                       | part :: _ => Done part
                       end
             end = Done part /\ In part (dict_keys parts)).
  { destruct (current_part st) as [part|]; [now exists part|].
    destruct parts as [|[k l] rest]; [congruence|]. exists k. simpl. auto. }
  destruct Hstart as (part & -> & Hin). simpl.
  destruct (py_index_In _ _ Hin) as [i ->]. simpl.
  eexists. split; [reflexivity|]. split; simpl; [exact Hradio|].
  split.
  - apply NoDup_update_selection. destruct (selected_symptoms st); [tauto | constructor].
  - intros s Hs. apply In_update_selection in Hs. destruct Hs as [Hs|[Hs _]].
    + apply (dict_get_taxonomy parts (body_part_radio ui)). now apply Hmulti.
    + destruct (selected_symptoms st); [now apply Hsel | destruct Hs].
Qed.

(** X7.  Over a non-empty taxonomy, from a session in order (the fresh one
    is), any sequence of runs in which the widgets hand back options they were
    given raises nothing and ends in a session in order; after at least one
    run both keys of the session are set. *)
Theorem script_runs_ok (parts : dict (list string)) (uis : list interaction)
    (st : session_state) :
  parts <> [] -> session_ok parts st -> Forall (valid_interaction parts) uis ->
  exists st',
    script_runs parts st uis = Done st' /\
    session_ok parts st' /\
    (uis <> [] -> selected_symptoms st' <> None /\ current_part st' <> None).
Proof.
  intros Hparts Hok Hvalid. revert st Hok.
  induction Hvalid as [|ui uis Hui Hrest IH]; intros st Hok.
  - exists st. simpl. tauto.
  - simpl. destruct (script_run_ok parts st ui Hparts Hok Hui) as (selected & -> & Hok').
    simpl. destruct (IH _ Hok') as (st' & Hrun & Hok'' & Hset).
    exists st'. split; [exact Hrun|]. split; [exact Hok''|]. intros _.
    destruct uis as [|ui' uis'].
    + simpl in Hrun. injection Hrun as <-. simpl. split; discriminate.
    + apply Hset. discriminate.
Qed.

Lemma script_runs_ok_witness :
  let uis :=
    [ {| body_part_radio := "Head/Neck";
         symptom_multiselect := ["Dizziness"; "Sore throat"] |};
      {| body_part_radio := "Systemic"; symptom_multiselect := ["Fatigue"] |};
      {| body_part_radio := "Head/Neck"; symptom_multiselect := ["Sore throat"] |} ] in
  exists st',
    script_runs BODY_PART_SYMPTOMS fresh_session uis = Done st' /\
    session_ok BODY_PART_SYMPTOMS st' /\
    (uis <> [] -> selected_symptoms st' <> None /\ current_part st' <> None).
Proof.
  cbv zeta.
  apply (script_runs_ok BODY_PART_SYMPTOMS
           [ {| body_part_radio := "Head/Neck";
                symptom_multiselect := ["Dizziness"; "Sore throat"] |};
             {| body_part_radio := "Systemic"; symptom_multiselect := ["Fatigue"] |};
             {| body_part_radio := "Head/Neck"; symptom_multiselect := ["Sore throat"] |} ]
           fresh_session).
  - discriminate.
  - split; exact I.
  - repeat (apply Forall_cons;
            [split; [simpl; tauto
                    | intros s Hs; simpl in Hs; simpl; intuition (subst; tauto)]|]).
    apply Forall_nil.
Defined.

(** A session whose current part is no region of the taxonomy stops the
    script at line 101. *)
Example script_run_unknown_part :
  script_run BODY_PART_SYMPTOMS
    {| selected_symptoms := Some []; current_part := Some "Tail" |}
    {| body_part_radio := "Head/Neck"; symptom_multiselect := [] |}
  = Raised ValueError.
Proof. reflexivity. Qed.

(** ** The line of current symptoms *)

Lemma ascii_compare_refl (a : Ascii.ascii) : Ascii.compare a a = Eq.
Proof. unfold Ascii.compare. apply N.compare_refl. Qed.

Lemma string_compare_le_trans (a b c : string) :
  String.compare a b <> Gt -> String.compare b c <> Gt -> String.compare a c <> Gt.
Proof.
  revert b c. induction a as [|x a IH]; intros [|y b] [|z c]; simpl; try congruence.
  destruct (Ascii.compare x y) eqn:Exy; try congruence;
    destruct (Ascii.compare y z) eqn:Eyz; try congruence.
  - apply Ascii.compare_eq_iff in Exy, Eyz. subst. rewrite ascii_compare_refl. apply IH.
  - apply Ascii.compare_eq_iff in Exy. subst. rewrite Eyz. congruence.
  - apply Ascii.compare_eq_iff in Eyz. subst. rewrite Exy. congruence.
  - intros _ _. unfold Ascii.compare in *.
    rewrite N.compare_lt_iff in Exy, Eyz.
    assert (H : (Ascii.N_of_ascii x < Ascii.N_of_ascii z)%N) by lia.
    apply N.compare_lt_iff in H. rewrite H. congruence.
Qed.

Lemma string_leb_trans (a b c : string) :
  String.leb a b = true -> String.leb b c = true -> String.leb a c = true.
Proof.
  unfold String.leb. intros Hab Hbc.
  pose proof (string_compare_le_trans a b c) as H.
  destruct (String.compare a b), (String.compare b c), (String.compare a c);
    try discriminate; try reflexivity; exfalso; apply H; congruence.
Qed.

Lemma Permutation_insert_sorted (s : string) (l : list string) :
  Permutation (insert_sorted s l) (s :: l).
Proof.
  induction l as [|x l IH]; simpl; [apply Permutation_refl|].
  destruct (String.leb s x); [apply Permutation_refl|].
  apply perm_trans with (x :: s :: l); [now apply perm_skip | apply perm_swap].
Qed.

Lemma Permutation_sorted (l : list string) : Permutation (sorted l) l.
Proof.
  induction l as [|x l IH]; simpl; [constructor|].
  apply perm_trans with (x :: sorted l);
    [apply Permutation_insert_sorted | now apply perm_skip].
Qed.

Lemma insert_sorted_sorted (s : string) (l : list string) :
  StronglySorted string_le l -> StronglySorted string_le (insert_sorted s l).
Proof.
  intros H. induction H as [|x l Hl IH Hx]; simpl; [repeat constructor|].
  destruct (String.leb s x) eqn:E.
  - constructor; [now constructor|]. constructor; [exact E|].
    apply Forall_forall. intros y Hy. rewrite Forall_forall in Hx.
    exact (string_leb_trans s x y E (Hx y Hy)).
  - constructor; [exact IH|].
    apply Forall_forall. intros y Hy.
    apply (Permutation_in _ (Permutation_insert_sorted s l)) in Hy.
    destruct Hy as [<-|Hy].
    + destruct (String.leb_total s x) as [H|H]; [congruence | exact H].
    + rewrite Forall_forall in Hx. auto.
Qed.

Lemma sorted_sorted (l : list string) : StronglySorted string_le (sorted l).
Proof.
  induction l as [|x l IH]; simpl; [constructor | now apply insert_sorted_sorted].
Qed.

(** Two ascending lists with the same elements are the same list. *)
Lemma sorted_unique (l l' : list string) :
  StronglySorted string_le l -> StronglySorted string_le l' -> Permutation l l' -> l = l'.
Proof.
  intros H. revert l'. induction H as [|x l Hl IH Hx]; intros l' H' Hp.
  - apply Permutation_nil in Hp. now subst.
  - destruct H' as [|y l' Hl' Hy].
    + apply Permutation_sym, Permutation_nil in Hp. discriminate.
    + assert (x = y).
      { rewrite Forall_forall in Hx, Hy.
        assert (Hxin : In x (y :: l')) by (apply (Permutation_in _ Hp); now left).
        assert (Hyin : In y (x :: l))
          by (apply (Permutation_in _ (Permutation_sym Hp)); now left).
        destruct Hxin as [E|Hxin]; [now symmetry|].
        destruct Hyin as [E|Hyin]; [exact E|].
        apply String.leb_antisym; [apply Hx | apply Hy]; assumption. }
      subst y. f_equal. apply IH; [exact Hl'|].
      exact (Permutation_cons_inv Hp).
Qed.

(** X8.  The line of current symptoms does not depend on the order in which
    the set of selected symptoms is visited: two visits of the same set give
    the same line. *)
Theorem current_symptoms_line_order_free (selected selected' : list string) :
  Permutation selected selected' ->
  current_symptoms_line selected = current_symptoms_line selected'.
Proof.
  intros Hp. unfold current_symptoms_line.
  assert (E : sorted selected = sorted selected'); [|now rewrite E].
  apply sorted_unique; try apply sorted_sorted.
  apply perm_trans with selected; [apply Permutation_sorted|].
  apply perm_trans with selected'; [exact Hp | apply Permutation_sym, Permutation_sorted].
Qed.

Lemma current_symptoms_line_order_free_witness :
  current_symptoms_line ["Fever"; "Dizziness"; "Fatigue"] =
  current_symptoms_line ["Dizziness"; "Fever"; "Fatigue"].
Proof.
  apply (current_symptoms_line_order_free ["Fever"; "Dizziness"; "Fatigue"]
           ["Dizziness"; "Fever"; "Fatigue"]).
  apply perm_swap.
Defined.
